(** * The login waiting list of the server (src/waitlist.cpp)

    A shallow embedding of [WaitingList::clientLogin],
    [WaitingList::getClientSlot], [WaitingList::getTime], [getTimeout] and
    [WaitListInfo::findClient], for a 64-bit target ([std::size_t] and
    [int64_t] are both 64 bits wide, so that mixed arithmetic is done on
    unsigned 64-bit values).

    The [std::list<Wait>] is a list of nodes, each with the address of its
    node; an iterator is the address of a node or the past-the-end
    iterator.  Erasing a node leaves every other iterator alone, as the
    container does, and an iterator whose node was erased is invalid:
    using it has no defined behaviour. *)

From Stdlib Require Import ZArith List Bool Lia Permutation PeanoNat.
Import ListNotations.
Local Open Scope Z_scope.

(** ** Machine integers *)

(** Conversion to [std::size_t] (unsigned, 64 bits). *)
Definition to_size_t (z : Z) : Z := z mod 2 ^ 64.

(** Conversion to [uint32_t]. *)
Definition to_uint32 (z : Z) : Z := z mod 2 ^ 32.

(** ** Data *)

(** [struct Wait]: [timeout] is a [std::size_t], [playerGUID] a [uint32_t]. *)
Record Wait : Type := mkWait { timeout : Z; playerGUID : Z }.

(** A node of the [std::list<Wait>]: its address and its element. *)
Record Node : Type := mkNode { addr : nat; elt : Wait }.

Definition WaitList : Type := list Node.

(** [WaitList::iterator]: a node, or [end()]. *)
Inductive iterator : Type :=
| It (a : nat)
| ItEnd.

(** [struct WaitListInfo]; [nextAddr] is the allocator of list nodes: the
    address the next emplaced node gets. *)
Record WaitListInfo : Type := mkInfo {
  waitList : WaitList;
  priorityEnd : iterator;
  nextAddr : nat
}.

(** [WaitingList::WaitingList() : info(new WaitListInfo)]: an empty list and
    [priorityEnd = waitList.end()]. *)
Definition newWaitListInfo : WaitListInfo := mkInfo [] ItEnd 0.

(** What [clientLogin] reads of its [const Player*]. *)
Record Player : Type := mkPlayer {
  hasFlag_CanAlwaysLogin : bool;
  getAccountType : Z;
  isPremium : bool;
  getGUID : Z
}.

(** What [clientLogin] reads of its surroundings on one call:
    [g_config.getNumber(ConfigManager::MAX_PLAYERS)],
    [g_game.getPlayersOnline()] (a [std::size_t]) and [OTSYS_TIME()]
    (an [int64_t]). *)
Record Env : Type := mkEnv {
  MAX_PLAYERS : Z;
  getPlayersOnline : Z;
  OTSYS_TIME : Z
}.

(** The GUIDs of the entries, front to back. *)
Definition guids (l : WaitList) : list Z := map (fun n => playerGUID (elt n)) l.

(** Nodes of the list have addresses of their own, handed out by the
    allocator, and no two entries are of the same player. *)
Definition list_ok (info : WaitListInfo) : Prop :=
  NoDup (map addr (waitList info)) /\
  NoDup (guids (waitList info)) /\
  Forall (fun n => (addr n < nextAddr info)%nat) (waitList info).

(** ** A state monad with undefined behaviour *)

Inductive outcome (A : Type) : Type :=
| Ret (a : A)
| Undefined.
Arguments Ret {A} a.
Arguments Undefined {A}.

Definition M (A : Type) : Type := WaitListInfo -> outcome (A * WaitListInfo).

Definition ret {A : Type} (a : A) : M A := fun info => Ret (a, info).

Definition bind {A B : Type} (m : M A) (f : A -> M B) : M B :=
  fun info =>
    match m info with
    | Ret (a, info') => f a info'
    | Undefined => Undefined
    end.

Definition get : M WaitListInfo := fun info => Ret (info, info).

Definition put (info : WaitListInfo) : M unit := fun _ => Ret (tt, info).

Definition undefined {A : Type} : M A := fun _ => Undefined.

Declare Scope wl_scope.
Delimit Scope wl_scope with wl.
Notation "x <- m ;; k" := (bind m (fun x => k))
  (at level 61, m at next level, right associativity) : wl_scope.
Notation "m ;;; k" := (bind m (fun _ => k))
  (at level 61, right associativity) : wl_scope.

(** ** Timeout policy *)

(** [WaitingList::getTime]. *)
Definition getTime (slot : Z) : Z :=
  if slot <? 5 then 5
  else if slot <? 10 then 10
  else if slot <? 20 then 20
  else if slot <? 50 then 60
  else 120.

(** [getTimeout]: 15 seconds longer than the expected retry attempt. *)
Definition getTimeout (slot : Z) : Z := to_size_t (getTime slot + 15).

(** [time + (getTimeout(slot) * 1000)], with [time] an [int64_t] converted
    to [std::size_t] by the addition. *)
Definition deadline (time slot : Z) : Z :=
  to_size_t (to_size_t time + to_size_t (getTimeout slot * 1000)).

(** ** The list operations *)

(** The loop of [findClient], [slot] being the counter. *)
Fixpoint findClient_loop (guid : Z) (l : WaitList) (slot : Z) : iterator * Z :=
  match l with
  | [] => (ItEnd, slot)
  | n :: l' =>
      if playerGUID (elt n) =? guid then (It (addr n), slot)
      else findClient_loop guid l' (to_size_t (slot + 1))
  end.

(** [WaitListInfo::findClient]. *)
Definition findClient (player : Player) : M (iterator * Z) :=
  (info <- get ;;
   ret (findClient_loop (getGUID player) (waitList info) 1))%wl.

(** The expiry test of the purge loop, [(it->timeout - time) <= 0]: the
    difference of a [std::size_t] and an [int64_t] is a [std::size_t]. *)
Definition expired (time : Z) (w : Wait) : bool :=
  to_size_t (timeout w - to_size_t time) <=? 0.

(** The purge loop of [clientLogin]: [erase] or [++it]. *)
Fixpoint purge (time : Z) (l : WaitList) : WaitList :=
  match l with
  | [] => []
  | n :: l' => if expired time (elt n) then purge time l' else n :: purge time l'
  end.

(** [waitList.erase(it)] for [it] the node at address [a]. *)
Fixpoint erase (a : nat) (l : WaitList) : WaitList :=
  match l with
  | [] => []
  | n :: l' => if Nat.eqb (addr n) a then l' else n :: erase a l'
  end.

(** [it->timeout = t] for [it] the node at address [a]. *)
Fixpoint set_timeout (a : nat) (t : Z) (l : WaitList) : WaitList :=
  match l with
  | [] => []
  | n :: l' =>
      if Nat.eqb (addr n) a then mkNode (addr n) (mkWait t (playerGUID (elt n))) :: l'
      else n :: set_timeout a t l'
  end.

(** [std::distance(waitList.begin(), it)]; no result when [it] is not an
    iterator of the list. *)
Fixpoint distance_to (a : nat) (l : WaitList) : option Z :=
  match l with
  | [] => None
  | n :: l' =>
      if Nat.eqb (addr n) a then Some 0
      else option_map Z.succ (distance_to a l')
  end.

Definition distance (l : WaitList) (it : iterator) : option Z :=
  match it with
  | ItEnd => Some (Z.of_nat (length l))
  | It a => distance_to a l
  end.

(** [waitList.emplace(it, ...)]: the new node goes directly before [it]. *)
Fixpoint emplace_at (a : nat) (new : Node) (l : WaitList) : option WaitList :=
  match l with
  | [] => None
  | n :: l' =>
      if Nat.eqb (addr n) a then Some (new :: n :: l')
      else option_map (cons n) (emplace_at a new l')
  end.

Definition emplace (it : iterator) (new : Node) (l : WaitList) : option WaitList :=
  match it with
  | ItEnd => Some (l ++ [new])
  | It a => emplace_at a new l
  end.

(** The entry [clientLogin] makes for a player who is not queued. *)
Definition new_entry (info : WaitListInfo) (time slot guid : Z) : Node :=
  mkNode (nextAddr info) (mkWait (deadline time (to_size_t (slot + 1))) guid).

(** The player has exactly one entry. *)
Definition holds_one_entry (player : Player) (info : WaitListInfo) : Prop :=
  count_occ Z.eq_dec (guids (waitList info)) (getGUID player) = 1%nat.

(** After the purge the player had an entry, and [info'] has the purged
    list with that entry's timeout set from the slot [findClient] gave. *)
Definition refreshed (env : Env) (player : Player) (info info' : WaitListInfo) : Prop :=
  let time := OTSYS_TIME env in
  let l := purge time (waitList info) in
  exists l1 n l2,
    l = l1 ++ n :: l2 /\
    playerGUID (elt n) = getGUID player /\
    waitList info' =
      l1 ++ mkNode (addr n)
              (mkWait (deadline time (snd (findClient_loop (getGUID player) l 1)))
                 (getGUID player)) :: l2.

(** After the purge the player had no entry, and [info'] has the purged
    list with one new entry of the player. *)
Definition created (env : Env) (player : Player) (info info' : WaitListInfo) : Prop :=
  let time := OTSYS_TIME env in
  let l := purge time (waitList info) in
  ~ In (getGUID player) (guids l) /\
  exists l1 l2 slot,
    l = l1 ++ l2 /\
    waitList info' = l1 ++ new_entry info time slot (getGUID player) :: l2.

(** ** Scenarios *)

(** The value the scenarios give to the enumerator
    [ACCOUNT_TYPE_GAMEMASTER]; their players have account type 1, below it. *)
Definition gamemaster : Z := 4.

(** Two standard players (GUIDs 1 and 4), two premium players (GUIDs 2
    and 3), and the player of GUID 1 with the flag [CanAlwaysLogin]. *)
Definition playerA : Player := mkPlayer false 1 false 1.
Definition playerB : Player := mkPlayer false 1 true 2.
Definition playerC : Player := mkPlayer false 1 true 3.
Definition playerD : Player := mkPlayer false 1 false 4.
Definition playerA_flagged : Player := mkPlayer true 1 false 1.

(** [MAX_PLAYERS] is 2; [online] players are online at [time]. *)
Definition server (online time : Z) : Env := mkEnv 2 online time.

(** [MAX_PLAYERS] is 0. *)
Definition unlimited (online time : Z) : Env := mkEnv 0 online time.

(** The list after A asked at time 1000 with the server full. *)
Definition queueA : WaitListInfo :=
  mkInfo [mkNode 0 (mkWait 21000 1)] ItEnd 1.

(** The list after A, then B at time 2000, asked with the server full. *)
Definition queueAB : WaitListInfo :=
  mkInfo [mkNode 0 (mkWait 21000 1); mkNode 1 (mkWait 22000 2)] (It 1) 2.

(** The list after B at time 1000, then C at time 2000, asked with the
    server full. *)
Definition queueCB : WaitListInfo :=
  mkInfo [mkNode 1 (mkWait 22000 3); mkNode 0 (mkWait 21000 2)] (It 1) 2.

(** The list after A at time 1000, then D at time 50000, asked with the
    server full. *)
Definition queueAD : WaitListInfo :=
  mkInfo [mkNode 0 (mkWait 21000 1); mkNode 1 (mkWait 70000 4)] ItEnd 2.

(** The list after the premium player B asked at time 1000 with the
    server full. *)
Definition queueB : WaitListInfo :=
  mkInfo [mkNode 0 (mkWait 21000 2)] (It 0) 1.

(** The list after B, queued so, asked again at time 2000 with one player
    online and was admitted: [priorityEnd] still points to B's node. *)
Definition queueB_admitted : WaitListInfo :=
  mkInfo [] (It 0) 1.

(** ** The operations of [WaitingList] *)

Section WaitingList.

(** The enumerator [ACCOUNT_TYPE_GAMEMASTER], declared in a header that is
    not among the sources. *)
Variable ACCOUNT_TYPE_GAMEMASTER : Z.

(** The first test of [clientLogin]. *)
Definition exempt (player : Player) : bool :=
  hasFlag_CanAlwaysLogin player || (ACCOUNT_TYPE_GAMEMASTER <=? getAccountType player).

(** [static_cast<uint32_t>(g_config.getNumber(ConfigManager::MAX_PLAYERS))]. *)
Definition maxPlayers (env : Env) : Z := to_uint32 (MAX_PLAYERS env).

(** The second test of [clientLogin]. *)
Definition unqueued (env : Env) (info : WaitListInfo) : bool :=
  (maxPlayers env =? 0)
  || (match waitList info with [] => true | _ => false end
      && (getPlayersOnline env <? maxPlayers env)).

(** The premium branch: [slot = distance(begin, priorityEnd)], then
    [priorityEnd = emplace(priorityEnd, time + getTimeout(slot + 1) * 1000, guid)]. *)
Definition emplace_premium (time guid : Z) : M unit :=
  (info <- get ;;
   match distance (waitList info) (priorityEnd info) with
   | None => undefined
   | Some slot =>
       let new := mkNode (nextAddr info)
                    (mkWait (deadline time (to_size_t (slot + 1))) guid) in
       match emplace (priorityEnd info) new (waitList info) with
       | None => undefined
       | Some l => put (mkInfo l (It (nextAddr info)) (S (nextAddr info)))
       end
   end)%wl.

(** The other branch:
    [emplace_back(time + getTimeout(waitList.size() + 1) * 1000, guid)]. *)
Definition emplace_back (time guid : Z) : M unit :=
  (info <- get ;;
   let size := Z.of_nat (length (waitList info)) in
   let new := mkNode (nextAddr info)
                (mkWait (deadline time (to_size_t (size + 1))) guid) in
   put (mkInfo (waitList info ++ [new]) (priorityEnd info) (S (nextAddr info))))%wl.

(** [WaitingList::clientLogin]. *)
Definition clientLogin (env : Env) (player : Player) : M bool :=
  (if exempt player then ret true
   else
     info <- get ;;
     if unqueued env info then ret true
     else
       let time := OTSYS_TIME env in
       put (mkInfo (purge time (waitList info)) (priorityEnd info) (nextAddr info)) ;;;
       r <- findClient player ;;
       match r with
       | (It a, slot) =>
           if to_size_t (getPlayersOnline env + slot) <=? maxPlayers env then
             info <- get ;;
             put (mkInfo (erase a (waitList info)) (priorityEnd info) (nextAddr info)) ;;;
             ret true
           else
             info <- get ;;
             put (mkInfo (set_timeout a (deadline time slot) (waitList info))
                    (priorityEnd info) (nextAddr info)) ;;;
             ret false
       | (ItEnd, _) =>
           (if isPremium player then emplace_premium time (getGUID player)
            else emplace_back time (getGUID player)) ;;;
           ret false
       end)%wl.

(** [WaitingList::getClientSlot]. *)
Definition getClientSlot (player : Player) : M Z :=
  (r <- findClient player ;;
   match r with
   | (ItEnd, _) => ret 0
   | (It _, slot) => ret slot
   end)%wl.

(** The states the server can be in: the new list, and what a call of
    [clientLogin] that returns leaves behind. *)
Inductive reachable : WaitListInfo -> Prop :=
| reach_new : reachable newWaitListInfo
| reach_login : forall env player info b info',
    reachable info ->
    clientLogin env player info = Ret (b, info') ->
    reachable info'.

(** ** Timeout policy *)

Lemma to_size_t_small (z : Z) : 0 <= z < 2 ^ 64 -> to_size_t z = z.
Proof. intros H. unfold to_size_t. now apply Z.mod_small. Qed.

Lemma getTime_range (slot : Z) : 5 <= getTime slot <= 120.
Proof.
  unfold getTime.
  repeat match goal with |- context [?a <? ?b] => destruct (Z.ltb_spec a b) end; lia.
Qed.

Lemma getTime_mono (s1 s2 : Z) : s1 <= s2 -> getTime s1 <= getTime s2.
Proof.
  intros H. unfold getTime.
  repeat match goal with |- context [?a <? ?b] => destruct (Z.ltb_spec a b) end; lia.
Qed.

Lemma getTimeout_eq (slot : Z) : getTimeout slot = getTime slot + 15.
Proof.
  unfold getTimeout. apply to_size_t_small.
  pose proof (getTime_range slot). lia.
Qed.

(** C5: for a 1-based slot, [getTime] is 5 on 1..4, 10 on 5..9, 20 on
    10..19, 60 on 20..49 and 120 from 50 on, it never decreases when the
    slot grows, and [getTimeout] is [getTime] plus 15. *)
Theorem C5_timeout_policy (slot : Z) (Hslot : 1 <= slot) :
  (slot <= 4 -> getTime slot = 5) /\
  (5 <= slot <= 9 -> getTime slot = 10) /\
  (10 <= slot <= 19 -> getTime slot = 20) /\
  (20 <= slot <= 49 -> getTime slot = 60) /\
  (50 <= slot -> getTime slot = 120) /\
  (forall slot', slot <= slot' -> getTime slot <= getTime slot') /\
  getTimeout slot = getTime slot + 15.
Proof.
  repeat split; try apply getTimeout_eq; try (intros; now apply getTime_mono);
    intros; unfold getTime;
    repeat match goal with |- context [?a <? ?b] => destruct (Z.ltb_spec a b) end; lia.
Qed.

(** ** The lookup *)

Lemma findClient_loop_end (g : Z) (l : WaitList) :
  forall slot slot', findClient_loop g l slot = (ItEnd, slot') -> ~ In g (guids l).
Proof.
  induction l as [|n l IH]; intros slot slot' H; simpl in *.
  - tauto.
  - destruct (Z.eqb_spec (playerGUID (elt n)) g) as [E|E]; [discriminate|].
    intros [F|F]; [contradiction|]. now apply (IH _ _ H).
Qed.

Lemma findClient_loop_absent (g : Z) (l : WaitList) :
  forall slot, ~ In g (guids l) -> fst (findClient_loop g l slot) = ItEnd.
Proof.
  induction l as [|n l IH]; intros slot H; simpl in *; [reflexivity|].
  destruct (Z.eqb_spec (playerGUID (elt n)) g) as [E|E]; [tauto|].
  apply IH. tauto.
Qed.

Lemma findClient_loop_first (g : Z) (l1 : WaitList) (n : Node) (l2 : WaitList) :
  forall slot,
    playerGUID (elt n) = g ->
    ~ In g (guids l1) ->
    0 <= slot ->
    slot + Z.of_nat (length l1) < 2 ^ 64 ->
    findClient_loop g (l1 ++ n :: l2) slot = (It (addr n), slot + Z.of_nat (length l1)).
Proof.
  induction l1 as [|m l1 IH]; intros slot Hn Hl1 H0 Hlt.
  - simpl. rewrite (proj2 (Z.eqb_eq _ _) Hn). f_equal. lia.
  - cbn [app findClient_loop]. simpl in Hl1.
    destruct (Z.eqb_spec (playerGUID (elt m)) g) as [E|E]; [tauto|].
    cbn [length] in Hlt. rewrite Nat2Z.inj_succ in Hlt.
    rewrite to_size_t_small by lia.
    rewrite IH by (try tauto; lia).
    f_equal. cbn [length]. lia.
Qed.

(** Where the first entry of a queued player is. *)
Lemma first_entry (g : Z) (l : WaitList) :
  In g (guids l) ->
  exists l1 n l2,
    l = l1 ++ n :: l2 /\ playerGUID (elt n) = g /\ ~ In g (guids l1).
Proof.
  induction l as [|m l IH]; intros H; simpl in H; [tauto|].
  destruct (Z.eq_dec (playerGUID (elt m)) g) as [E|E].
  - exists [], m, l. simpl. tauto.
  - destruct H as [H|H]; [contradiction|].
    destruct (IH H) as (l1 & n & l2 & -> & Hn & Hl1).
    exists (m :: l1), n, l2. simpl. repeat split; tauto.
Qed.

Lemma findClient_loop_found (g : Z) (l : WaitList) :
  forall slot a slot', findClient_loop g l slot = (It a, slot') ->
    exists l1 n l2,
      l = l1 ++ n :: l2 /\ addr n = a /\ playerGUID (elt n) = g /\ ~ In g (guids l1).
Proof.
  induction l as [|m l IH]; intros slot a slot' H; simpl in H; [discriminate|].
  destruct (Z.eqb_spec (playerGUID (elt m)) g) as [E|E].
  - inversion H; subst. exists [], m, l. simpl. tauto.
  - destruct (IH _ _ _ H) as (l1 & n & l2 & -> & Ha & Hn & Hl1).
    exists (m :: l1), n, l2. simpl. repeat split; tauto.
Qed.

(** ** [getClientSlot] *)

(** C9: [getClientSlot] returns and leaves the list, with its order and
    its timeouts, and [priorityEnd] as they are; nothing is purged. *)
Theorem C9_getClientSlot_frame (player : Player) (info : WaitListInfo) :
  exists slot, getClientSlot player info = Ret (slot, info).
Proof.
  unfold getClientSlot, findClient, bind, get, ret.
  destruct (findClient_loop (getGUID player) (waitList info) 1) as [[a|] slot];
    eexists; reflexivity.
Qed.

(** C8: on a list of fewer than 2^64 nodes, [getClientSlot] returns 0
    exactly when no entry has the player's GUID, and otherwise the 1-based
    position of the player's first entry, which is the slot [findClient]
    gives. *)
Theorem C8_getClientSlot_position (player : Player) (info : WaitListInfo)
  (Hsize : Z.of_nat (length (waitList info)) < 2 ^ 64) :
  exists slot,
    getClientSlot player info = Ret (slot, info) /\
    (slot = 0 <-> ~ In (getGUID player) (guids (waitList info))) /\
    (In (getGUID player) (guids (waitList info)) ->
     exists l1 n l2,
       waitList info = l1 ++ n :: l2 /\
       playerGUID (elt n) = getGUID player /\
       ~ In (getGUID player) (guids l1) /\
       slot = Z.of_nat (length l1) + 1 /\
       findClient player info = Ret ((It (addr n), slot), info)).
Proof.
  destruct (in_dec Z.eq_dec (getGUID player) (guids (waitList info))) as [Hin|Hout].
  - destruct (first_entry _ _ Hin) as (l1 & n & l2 & Hl & Hn & Hl1).
    assert (Hfind : findClient_loop (getGUID player) (waitList info) 1
                    = (It (addr n), 1 + Z.of_nat (length l1))).
    { rewrite Hl. apply findClient_loop_first; try assumption; try lia.
      rewrite Hl, length_app in Hsize. cbn [length] in Hsize. lia. }
    exists (Z.of_nat (length l1) + 1). split; [|split].
    + unfold getClientSlot, findClient, bind, get, ret. rewrite Hfind.
      f_equal. f_equal. lia.
    + split; [lia|tauto].
    + intros _. exists l1, n, l2. repeat split; try assumption.
      unfold findClient, bind, get, ret. rewrite Hfind. do 3 f_equal. lia.
  - exists 0. split; [|split].
    + unfold getClientSlot, findClient, bind, get, ret.
      pose proof (findClient_loop_absent _ _ 1 Hout) as H.
      destruct (findClient_loop (getGUID player) (waitList info) 1) as [it slot].
      simpl in H. subst it. reflexivity.
    + tauto.
    + tauto.
Qed.

(** ** Early returns of [clientLogin] *)

Lemma clientLogin_exempt (env : Env) (player : Player) (info : WaitListInfo) :
  exempt player = true -> clientLogin env player info = Ret (true, info).
Proof. intros H. unfold clientLogin. now rewrite H. Qed.

Lemma clientLogin_unqueued (env : Env) (player : Player) (info : WaitListInfo) :
  unqueued env info = true -> clientLogin env player info = Ret (true, info).
Proof.
  intros H. unfold clientLogin. destruct (exempt player); [reflexivity|].
  unfold bind, get. now rewrite H.
Qed.

(** C7: with [MAX_PLAYERS] configured as 0, [clientLogin] returns true
    for every player, whatever the list holds and however many players are
    online; the list is left as it is. *)
Theorem C7_unlimited_admits (env : Env) (player : Player) (info : WaitListInfo)
  (Hmax : MAX_PLAYERS env = 0) :
  clientLogin env player info = Ret (true, info).
Proof.
  apply clientLogin_unqueued. unfold unqueued, maxPlayers. now rewrite Hmax.
Qed.

(** ** The purge loop, [erase], the refresh and [emplace] *)

Lemma expired_iff (time : Z) (w : Wait) :
  expired time w = true <-> to_size_t (timeout w) = to_size_t time.
Proof.
  unfold expired, to_size_t. rewrite Z.leb_le.
  rewrite Zminus_mod_idemp_r.
  pose proof (Z.mod_pos_bound (timeout w - time) (2 ^ 64) ltac:(lia)) as Hb.
  split; intros H.
  - assert (E : (timeout w - time) mod 2 ^ 64 = 0) by lia.
    apply Z.mod_divide in E; [|lia]. destruct E as [k E].
    replace (timeout w) with (time + k * 2 ^ 64) by lia.
    apply Z_mod_plus_full.
  - rewrite Zminus_mod, H, Z.sub_diag. now rewrite Z.mod_0_l by lia.
Qed.

Lemma purge_In (time : Z) (n : Node) (l : WaitList) :
  In n (purge time l) <-> In n l /\ expired time (elt n) = false.
Proof.
  induction l as [|m l IH]; simpl; [tauto|].
  destruct (expired time (elt m)) eqn:E; simpl; rewrite IH; intuition (subst; congruence).
Qed.

(** An entry whose timeout is not the time of the call stays, whether the
    timeout is before or after that time. *)
Lemma purge_keeps (time : Z) (n : Node) (l : WaitList) :
  In n l ->
  0 <= timeout (elt n) < 2 ^ 64 ->
  0 <= time < 2 ^ 63 ->
  timeout (elt n) <> time ->
  In n (purge time l).
Proof.
  intros Hin Ht Htime Hne. apply purge_In. split; [assumption|].
  destruct (expired time (elt n)) eqn:E; [|reflexivity].
  apply expired_iff in E.
  rewrite !to_size_t_small in E by lia. contradiction.
Qed.

Lemma purge_NoDup {B : Type} (f : Node -> B) (time : Z) (l : WaitList) :
  NoDup (map f l) -> NoDup (map f (purge time l)).
Proof.
  induction l as [|m l IH]; simpl; intros H; [constructor|].
  inversion H as [|? ? Hm Hl]; subst.
  destruct (expired time (elt m)); [now apply IH|].
  simpl. constructor; [|now apply IH].
  intros F. apply Hm. apply in_map_iff in F. destruct F as (x & <- & Hx).
  apply in_map. now apply purge_In in Hx.
Qed.

Lemma purge_length (time : Z) (l : WaitList) :
  (length (purge time l) <= length l)%nat.
Proof.
  induction l as [|m l IH]; simpl; [lia|].
  destruct (expired time (elt m)); simpl; lia.
Qed.

Lemma erase_split (l1 : WaitList) (n : Node) (l2 : WaitList) :
  NoDup (map addr (l1 ++ n :: l2)) ->
  erase (addr n) (l1 ++ n :: l2) = l1 ++ l2.
Proof.
  induction l1 as [|m l1 IH]; simpl; intros H.
  - now rewrite Nat.eqb_refl.
  - inversion H as [|? ? Hm Hl]; subst.
    destruct (Nat.eqb_spec (addr m) (addr n)) as [E|E].
    + exfalso. apply Hm. rewrite map_app, in_app_iff. right. simpl. now left.
    + f_equal. now apply IH.
Qed.

Lemma set_timeout_split (t : Z) (l1 : WaitList) (n : Node) (l2 : WaitList) :
  NoDup (map addr (l1 ++ n :: l2)) ->
  set_timeout (addr n) t (l1 ++ n :: l2)
  = l1 ++ mkNode (addr n) (mkWait t (playerGUID (elt n))) :: l2.
Proof.
  induction l1 as [|m l1 IH]; simpl; intros H.
  - now rewrite Nat.eqb_refl.
  - inversion H as [|? ? Hm Hl]; subst.
    destruct (Nat.eqb_spec (addr m) (addr n)) as [E|E].
    + exfalso. apply Hm. rewrite map_app, in_app_iff. right. simpl. now left.
    + f_equal. now apply IH.
Qed.

Lemma emplace_split (it : iterator) (new : Node) (l l' : WaitList) :
  emplace it new l = Some l' ->
  exists l1 l2, l = l1 ++ l2 /\ l' = l1 ++ new :: l2.
Proof.
  destruct it as [a|]; simpl.
  - revert l'. induction l as [|m l IH]; simpl; intros l' H; [discriminate|].
    destruct (Nat.eqb (addr m) a).
    + inversion H; subst. now exists [], (m :: l).
    + destruct (emplace_at a new l) as [l0|]; [|discriminate].
      inversion H; subst.
      destruct (IH _ eq_refl) as (l1 & l2 & -> & ->).
      now exists (m :: l1), l2.
  - intros H. inversion H; subst. exists l, []. now rewrite app_nil_r.
Qed.

(** ** [clientLogin] past its early returns *)

Lemma clientLogin_queued (env : Env) (player : Player) (info : WaitListInfo) :
  exempt player = false ->
  unqueued env info = false ->
  let time := OTSYS_TIME env in
  let l := purge time (waitList info) in
  clientLogin env player info =
  match findClient_loop (getGUID player) l 1 with
  | (It a, slot) =>
      if to_size_t (getPlayersOnline env + slot) <=? maxPlayers env
      then Ret (true, mkInfo (erase a l) (priorityEnd info) (nextAddr info))
      else Ret (false, mkInfo (set_timeout a (deadline time slot) l)
                         (priorityEnd info) (nextAddr info))
  | (ItEnd, _) =>
      if isPremium player then
        match distance l (priorityEnd info) with
        | None => Undefined
        | Some slot =>
            match emplace (priorityEnd info)
                    (new_entry info time slot (getGUID player)) l with
            | None => Undefined
            | Some l' => Ret (false, mkInfo l' (It (nextAddr info)) (S (nextAddr info)))
            end
        end
      else
        Ret (false,
             mkInfo (l ++ [new_entry info time (Z.of_nat (length l)) (getGUID player)])
               (priorityEnd info) (S (nextAddr info)))
  end.
Proof.
  intros Hex Hun time l. unfold clientLogin. rewrite Hex.
  unfold bind at 1. unfold get at 1. rewrite Hun.
  unfold bind at 1. unfold put at 1.
  unfold bind at 1. unfold findClient, bind, get, ret. cbn [waitList].
  fold time. fold l.
  destruct (findClient_loop (getGUID player) l 1) as [[a|] slot].
  - destruct (to_size_t (getPlayersOnline env + slot) <=? maxPlayers env); reflexivity.
  - destruct (isPremium player).
    + unfold emplace_premium, bind, get, put, undefined. cbn [waitList priorityEnd nextAddr].
      destruct (distance l (priorityEnd info)) as [slot'|]; [|reflexivity].
      unfold new_entry.
      destruct (emplace (priorityEnd info) _ l); reflexivity.
    + reflexivity.
Qed.

(** ** What every reachable state satisfies *)

Lemma NoDup_insert {B : Type} (f : Node -> B) (new : Node) (l1 l2 : WaitList) :
  NoDup (map f (l1 ++ l2)) ->
  ~ In (f new) (map f (l1 ++ l2)) ->
  NoDup (map f (l1 ++ new :: l2)).
Proof.
  intros Hnd Hnew.
  apply Permutation_NoDup with (l := map f (new :: l1 ++ l2)).
  - apply Permutation_map, Permutation_middle.
  - simpl. now constructor.
Qed.

Lemma NoDup_delete {B : Type} (f : Node -> B) (n : Node) (l1 l2 : WaitList) :
  NoDup (map f (l1 ++ n :: l2)) -> NoDup (map f (l1 ++ l2)).
Proof.
  rewrite !map_app. cbn [map]. apply NoDup_remove_1.
Qed.

Lemma list_ok_purge (time : Z) (info : WaitListInfo) :
  list_ok info ->
  list_ok (mkInfo (purge time (waitList info)) (priorityEnd info) (nextAddr info)).
Proof.
  intros (Ha & Hg & Hf). unfold list_ok; cbn [waitList nextAddr].
  repeat split.
  - now apply purge_NoDup.
  - now apply (purge_NoDup (fun n => playerGUID (elt n))).
  - rewrite Forall_forall in *. intros n Hn. apply Hf. now apply purge_In in Hn.
Qed.

Lemma clientLogin_list_ok (env : Env) (player : Player) (info : WaitListInfo)
  (b : bool) (info' : WaitListInfo) :
  list_ok info ->
  clientLogin env player info = Ret (b, info') ->
  list_ok info'.
Proof.
  intros Hok H.
  destruct (exempt player) eqn:Hex.
  { rewrite clientLogin_exempt in H by assumption. now inversion H; subst. }
  destruct (unqueued env info) eqn:Hun.
  { rewrite clientLogin_unqueued in H by assumption. now inversion H; subst. }
  rewrite clientLogin_queued in H by assumption.
  pose proof (list_ok_purge (OTSYS_TIME env) _ Hok) as Hp.
  set (l := purge (OTSYS_TIME env) (waitList info)) in *.
  destruct Hp as (Ha & Hg & Hf). cbn [waitList nextAddr] in Ha, Hg, Hf.
  destruct (findClient_loop (getGUID player) l 1) as [[a|] slot] eqn:Hfind.
  - destruct (findClient_loop_found _ _ _ _ _ Hfind) as (l1 & n & l2 & Hl & <- & Hn & Hl1).
    rewrite Hl in *.
    destruct (to_size_t (getPlayersOnline env + slot) <=? maxPlayers env);
      inversion H; subst; unfold list_ok; cbn [waitList nextAddr].
    + rewrite erase_split by assumption.
      repeat split.
      * now apply NoDup_delete in Ha.
      * now apply (NoDup_delete (fun n => playerGUID (elt n))) in Hg.
      * rewrite Forall_app in *. destruct Hf as [Hf1 Hf2].
        inversion Hf2; subst. tauto.
    + rewrite set_timeout_split by assumption.
      repeat split.
      * rewrite map_app in *. exact Ha.
      * unfold guids in *. rewrite map_app in *. exact Hg.
      * rewrite Forall_app in *. destruct Hf as [Hf1 Hf2].
        inversion Hf2; subst. split; [assumption|]. now constructor.
  - apply findClient_loop_end in Hfind.
    assert (Hins : forall l1 l2 slot',
               l = l1 ++ l2 ->
               list_ok (mkInfo (l1 ++ new_entry info (OTSYS_TIME env) slot' (getGUID player) :: l2)
                          (It (nextAddr info)) (S (nextAddr info)))).
    { intros l1 l2 slot' Hl. rewrite Hl in *. unfold list_ok; cbn [waitList nextAddr].
      repeat split.
      - apply NoDup_insert; [assumption|]. cbn [new_entry addr].
        intros F. apply in_map_iff in F. destruct F as (x & Hx & Hin).
        rewrite Forall_forall in Hf. apply Hf in Hin. lia.
      - apply (NoDup_insert (fun n => playerGUID (elt n))); assumption.
      - rewrite Forall_app in *. destruct Hf as [Hf1 Hf2]. split.
        + eapply Forall_impl; [|exact Hf1]. simpl. intros; lia.
        + constructor; [cbn; lia|].
          eapply Forall_impl; [|exact Hf2]. simpl. intros; lia. }
    destruct (isPremium player).
    + destruct (distance l (priorityEnd info)) as [slot'|]; [|discriminate].
      destruct (emplace _ _ l) as [l'|] eqn:Hem; [|discriminate].
      inversion H; subst.
      destruct (emplace_split _ _ _ _ Hem) as (l1 & l2 & Hl & ->).
      now apply Hins.
    + inversion H; subst.
      specialize (Hins l [] (Z.of_nat (length l)) ltac:(now rewrite app_nil_r)).
      unfold list_ok in *. exact Hins.
Qed.

Lemma reachable_list_ok (info : WaitListInfo) : reachable info -> list_ok info.
Proof.
  induction 1 as [|env player info b info' _ IH H].
  - unfold list_ok, newWaitListInfo; simpl. repeat constructor.
  - exact (clientLogin_list_ok _ _ _ _ _ IH H).
Qed.

Lemma getClientSlot_absent (player : Player) (info : WaitListInfo) :
  ~ In (getGUID player) (guids (waitList info)) ->
  getClientSlot player info = Ret (0, info).
Proof.
  intros H. unfold getClientSlot, findClient, bind, get, ret.
  pose proof (findClient_loop_absent _ _ 1 H) as E.
  destruct (findClient_loop (getGUID player) (waitList info) 1) as [it slot].
  simpl in E. now subst it.
Qed.

(** ** A queued player asks again *)

Lemma deadline_eq (time slot : Z) :
  0 <= time < 2 ^ 63 -> deadline time slot = time + getTimeout slot * 1000.
Proof.
  intros Ht. unfold deadline. rewrite getTimeout_eq.
  pose proof (getTime_range slot).
  rewrite (to_size_t_small time) by lia.
  rewrite (to_size_t_small ((getTime slot + 15) * 1000)) by lia.
  apply to_size_t_small. lia.
Qed.

(** C6: a call that gets to the purge loop, for a player whose first
    entry in the purged list is at slot [s]: when the players online plus
    [s] do not exceed [maxPlayers], [clientLogin] erases that entry and
    returns true; otherwise it returns false, the entry's timeout is the
    time plus [getTimeout s] times 1000, and the player is still at slot
    [s]. *)
Theorem C6_queued_player_asks_again
  (env : Env) (player : Player) (info : WaitListInfo)
  (l1 : WaitList) (n : Node) (l2 : WaitList) (s : Z)
  (Hexempt : exempt player = false)
  (Hmax : maxPlayers env <> 0)
  (Haddr : NoDup (map addr (waitList info)))
  (Hpurged : purge (OTSYS_TIME env) (waitList info) = l1 ++ n :: l2)
  (Hentry : playerGUID (elt n) = getGUID player)
  (Hfirst : ~ In (getGUID player) (guids l1))
  (Hslot : s = Z.of_nat (length l1) + 1)
  (Honline : 0 <= getPlayersOnline env /\ getPlayersOnline env + s < 2 ^ 64)
  (Htime : 0 <= OTSYS_TIME env < 2 ^ 63) :
  (getPlayersOnline env + s <= maxPlayers env ->
   clientLogin env player info
   = Ret (true, mkInfo (l1 ++ l2) (priorityEnd info) (nextAddr info))) /\
  (maxPlayers env < getPlayersOnline env + s ->
   let n' := mkNode (addr n)
               (mkWait (OTSYS_TIME env + getTimeout s * 1000) (playerGUID (elt n))) in
   let info' := mkInfo (l1 ++ n' :: l2) (priorityEnd info) (nextAddr info) in
   clientLogin env player info = Ret (false, info') /\
   getClientSlot player info' = Ret (s, info')).
Proof.
  assert (Hun : unqueued env info = false).
  { unfold unqueued. rewrite (proj2 (Z.eqb_neq _ _) Hmax).
    destruct (waitList info); [destruct l1; discriminate|reflexivity]. }
  assert (Hfind : findClient_loop (getGUID player) (l1 ++ n :: l2) 1 = (It (addr n), s)).
  { rewrite findClient_loop_first by (try assumption; lia). f_equal. lia. }
  pose proof (purge_NoDup addr (OTSYS_TIME env) _ Haddr) as Hnd.
  rewrite Hpurged in Hnd.
  rewrite clientLogin_queued by assumption. rewrite Hpurged, Hfind.
  rewrite to_size_t_small by lia.
  split.
  - intros Hle. rewrite (proj2 (Z.leb_le _ _) Hle).
    now rewrite erase_split.
  - intros Hgt. cbv zeta. rewrite (proj2 (Z.leb_gt _ _) Hgt).
    rewrite set_timeout_split by assumption.
    rewrite deadline_eq by assumption.
    split; [reflexivity|].
    unfold getClientSlot, findClient, bind, get, ret. cbn [waitList].
    rewrite findClient_loop_first by (try assumption; lia).
    do 2 f_equal. lia.
Qed.

(** ** Admission and denial *)

(** C4, amended: in a reachable state, a call of a player who is not exempt,
    with [maxPlayers] not 0, that returns true leaves no entry of the
    player, and [getClientSlot] then returns 0. *)
Theorem C4_admitted_through_queue_holds_no_entry
  (env : Env) (player : Player) (info info' : WaitListInfo)
  (Hreach : reachable info)
  (Hexempt : exempt player = false)
  (Hmax : maxPlayers env <> 0)
  (Hadmit : clientLogin env player info = Ret (true, info')) :
  ~ In (getGUID player) (guids (waitList info')) /\
  getClientSlot player info' = Ret (0, info').
Proof.
  assert (Hout : ~ In (getGUID player) (guids (waitList info'))).
  { destruct (unqueued env info) eqn:Hun.
    - rewrite clientLogin_unqueued in Hadmit by assumption.
      inversion Hadmit; subst info'.
      unfold unqueued in Hun. rewrite (proj2 (Z.eqb_neq _ _) Hmax) in Hun.
      destruct (waitList info); [simpl; tauto|discriminate].
    - rewrite clientLogin_queued in Hadmit by assumption.
      pose proof (list_ok_purge (OTSYS_TIME env) _ (reachable_list_ok _ Hreach))
        as (_ & Hg & _).
      cbn [waitList] in Hg.
      destruct (findClient_loop _ _ 1) as [[a|] slot] eqn:Hfind.
      + destruct (findClient_loop_found _ _ _ _ _ Hfind)
          as (l1 & n & l2 & Hl & <- & Hn & Hl1).
        destruct (to_size_t (getPlayersOnline env + slot) <=? maxPlayers env);
          [|discriminate].
        inversion Hadmit; subst info'. cbn [waitList].
        pose proof (list_ok_purge (OTSYS_TIME env) _ (reachable_list_ok _ Hreach))
          as (Ha & _ & _).
        cbn [waitList] in Ha. rewrite Hl in *.
        rewrite erase_split by assumption.
        unfold guids in *. rewrite map_app in *. cbn [map] in Hg.
        apply NoDup_remove_2 in Hg. now rewrite Hn in Hg.
      + destruct (isPremium player); [|discriminate].
        destruct (distance _ _); [|discriminate].
        destruct (emplace _ _ _); discriminate. }
  split; [assumption|]. now apply getClientSlot_absent.
Qed.

(** C10: in a reachable state no call of [clientLogin] adds more than one
    entry, and after a call that returns false the player has exactly one
    entry: the one they had, with a new timeout, or one new entry. *)
Theorem C10_denied_player_holds_one_entry
  (env : Env) (player : Player) (info : WaitListInfo) (b : bool) (info' : WaitListInfo)
  (Hreach : reachable info)
  (Hcall : clientLogin env player info = Ret (b, info')) :
  (length (waitList info') <= S (length (waitList info)))%nat /\
  (b = false ->
   holds_one_entry player info' /\
   (refreshed env player info info' \/ created env player info info')).
Proof.
  pose proof (reachable_list_ok _ Hreach) as Hok.
  pose proof (clientLogin_list_ok _ _ _ _ _ Hok Hcall) as (_ & Hg' & _).
  assert (Hone : In (getGUID player) (guids (waitList info')) ->
                 holds_one_entry player info').
  { intros Hin. unfold holds_one_entry.
    now apply (proj1 (NoDup_count_occ' Z.eq_dec _) Hg'). }
  destruct (exempt player) eqn:Hex.
  { rewrite clientLogin_exempt in Hcall by assumption.
    inversion Hcall; subst. split; [lia|discriminate]. }
  destruct (unqueued env info) eqn:Hun.
  { rewrite clientLogin_unqueued in Hcall by assumption.
    inversion Hcall; subst. split; [lia|discriminate]. }
  rewrite clientLogin_queued in Hcall by assumption.
  pose proof (list_ok_purge (OTSYS_TIME env) _ Hok) as (Ha & _ & _).
  cbn [waitList] in Ha.
  pose proof (purge_length (OTSYS_TIME env) (waitList info)) as Hlen.
  unfold refreshed, created. cbv zeta.
  remember (purge (OTSYS_TIME env) (waitList info)) as l eqn:El.
  destruct (findClient_loop (getGUID player) l 1) as [[a|] slot] eqn:Hfind.
  - destruct (findClient_loop_found _ _ _ _ _ Hfind) as (l1 & n & l2 & Hl & <- & Hn & Hl1).
    clear Hfind. subst l. rewrite Hl in *. clear Hl.
    rewrite length_app in Hlen. cbn [length] in Hlen.
    destruct (to_size_t (getPlayersOnline env + slot) <=? maxPlayers env);
      inversion Hcall; subst b info'; cbn [waitList] in *.
    + split; [|discriminate]. rewrite erase_split by assumption.
      rewrite length_app. lia.
    + rewrite set_timeout_split in * by assumption.
      split.
      * rewrite length_app. cbn [length]. lia.
      * intros _. split.
        -- apply Hone. unfold guids. rewrite map_app, in_app_iff. right. now left.
        -- left. exists l1, n, l2. rewrite Hn. cbn [snd].
           repeat split; assumption.
  - pose proof (findClient_loop_end _ _ _ _ Hfind) as Hout.
    assert (Hins : forall l1 l2 slot' it nx,
               l = l1 ++ l2 ->
               info' = mkInfo (l1 ++ new_entry info (OTSYS_TIME env) slot' (getGUID player) :: l2)
                         it nx ->
               (length (waitList info') <= S (length (waitList info)))%nat /\
               (b = false ->
                holds_one_entry player info' /\
                ((exists l1 n l2,
                    l = l1 ++ n :: l2 /\ playerGUID (elt n) = getGUID player /\
                    waitList info' =
                      l1 ++ mkNode (addr n)
                              (mkWait (deadline (OTSYS_TIME env) (snd (ItEnd, slot)))
                                 (getGUID player)) :: l2) \/
                 (~ In (getGUID player) (guids l) /\
                  exists l1 l2 slot0,
                    l = l1 ++ l2 /\
                    waitList info' =
                      l1 ++ new_entry info (OTSYS_TIME env) slot0 (getGUID player) :: l2)))).
    { intros l1 l2 slot' it nx Hl ->. cbn [waitList]. split.
      - rewrite Hl in Hlen. rewrite length_app in *. cbn [length]. lia.
      - intros _. split.
        + apply Hone. cbn [waitList]. unfold guids.
          rewrite map_app, in_app_iff. right. now left.
        + right. split; [assumption|]. now exists l1, l2, slot'. }
    destruct (isPremium player).
    + destruct (distance l (priorityEnd info)) as [slot'|]; [|discriminate].
      destruct (emplace _ _ l) as [l'|] eqn:Hem; [|discriminate].
      destruct (emplace_split _ _ _ _ Hem) as (l1 & l2 & Hl & ->).
      injection Hcall as <- <-.
      now apply (Hins l1 l2 slot' (It (nextAddr info)) (S (nextAddr info)) Hl).
    + injection Hcall as <- <-.
      apply (Hins l [] (Z.of_nat (length l)) (priorityEnd info) (S (nextAddr info)));
        [now rewrite app_nil_r|reflexivity].
Qed.

(** ** More on the list operations *)

Lemma distance_to_split (l1 : WaitList) (n : Node) (l2 : WaitList) :
  NoDup (map addr (l1 ++ n :: l2)) ->
  distance_to (addr n) (l1 ++ n :: l2) = Some (Z.of_nat (length l1)).
Proof.
  induction l1 as [|m l1 IH]; cbn [app distance_to length map]; intros H.
  - now rewrite Nat.eqb_refl.
  - inversion H as [|? ? Hm Hl]; subst.
    destruct (Nat.eqb_spec (addr m) (addr n)) as [E|E].
    + exfalso. apply Hm. rewrite map_app, in_app_iff. right. simpl. now left.
    + rewrite (IH Hl). cbn [option_map]. f_equal. lia.
Qed.

Lemma emplace_at_middle (new : Node) (l1 : WaitList) (n : Node) (l2 : WaitList) :
  NoDup (map addr (l1 ++ n :: l2)) ->
  emplace_at (addr n) new (l1 ++ n :: l2) = Some (l1 ++ new :: n :: l2).
Proof.
  induction l1 as [|m l1 IH]; cbn [app emplace_at map]; intros H.
  - now rewrite Nat.eqb_refl.
  - inversion H as [|? ? Hm Hl]; subst.
    destruct (Nat.eqb_spec (addr m) (addr n)) as [E|E].
    + exfalso. apply Hm. rewrite map_app, in_app_iff. right. simpl. now left.
    + now rewrite (IH Hl).
Qed.

Lemma distance_to_None (a : nat) (l : WaitList) :
  distance_to a l = None <-> ~ In a (map addr l).
Proof.
  induction l as [|m l IH]; cbn [distance_to map In]; [tauto|].
  destruct (Nat.eqb_spec (addr m) a) as [E|E].
  - split; [discriminate|tauto].
  - destruct (distance_to a l); cbn [option_map].
    + split; [discriminate|]. intros H. exfalso. apply H. right.
      destruct (in_dec Nat.eq_dec a (map addr l)) as [Hin|Hout]; [assumption|].
      now apply IH in Hout.
    + split; [|reflexivity]. intros _ [F|F]; [contradiction|].
      now apply (proj1 IH eq_refl).
Qed.

Lemma emplace_at_None (a : nat) (new : Node) (l : WaitList) :
  emplace_at a new l = None <-> ~ In a (map addr l).
Proof.
  induction l as [|m l IH]; cbn [emplace_at map In]; [tauto|].
  destruct (Nat.eqb_spec (addr m) a) as [E|E].
  - split; [discriminate|tauto].
  - destruct (emplace_at a new l); cbn [option_map].
    + split; [discriminate|]. intros H. exfalso. apply H. right.
      destruct (in_dec Nat.eq_dec a (map addr l)) as [Hin|Hout]; [assumption|].
      now apply IH in Hout.
    + split; [|reflexivity]. intros _ [F|F]; [contradiction|].
      now apply (proj1 IH eq_refl).
Qed.

Lemma deadline_range (time slot : Z) : 0 <= deadline time slot < 2 ^ 64.
Proof. unfold deadline, to_size_t. apply Z.mod_pos_bound. lia. Qed.

(** The purge loop erases the entries whose timeout is the time of the
    call and no others, and keeps the order of those that stay. *)
Theorem purge_erases_equal_timeouts (time : Z) (l : WaitList)
  (Htime : 0 <= time < 2 ^ 63)
  (Hrange : Forall (fun n => 0 <= timeout (elt n) < 2 ^ 64) l) :
  purge time l = filter (fun n => negb (timeout (elt n) =? time)) l.
Proof.
  induction Hrange as [|n l Hn Hl IH]; cbn [purge filter]; [reflexivity|].
  rewrite IH.
  destruct (expired time (elt n)) eqn:E.
  - apply expired_iff in E. rewrite !to_size_t_small in E by lia.
    now rewrite (proj2 (Z.eqb_eq _ _) E).
  - destruct (Z.eqb_spec (timeout (elt n)) time) as [F|F]; [|reflexivity].
    assert (expired time (elt n) = true) by (apply expired_iff; now rewrite F).
    congruence.
Qed.

(** ** The shapes a call of [clientLogin] can leave *)

Lemma clientLogin_cases (env : Env) (player : Player) (info : WaitListInfo)
  (b : bool) (info' : WaitListInfo) :
  NoDup (map addr (waitList info)) ->
  clientLogin env player info = Ret (b, info') ->
  let time := OTSYS_TIME env in
  let g := getGUID player in
  let l := purge time (waitList info) in
  (exempt player || unqueued env info = true /\ b = true /\ info' = info) \/
  (exempt player || unqueued env info = false /\
   exists l1 n l2 slot,
     l = l1 ++ n :: l2 /\ playerGUID (elt n) = g /\ ~ In g (guids l1) /\
     findClient_loop g l 1 = (It (addr n), slot) /\
     ((b = true /\ to_size_t (getPlayersOnline env + slot) <= maxPlayers env /\
       info' = mkInfo (l1 ++ l2) (priorityEnd info) (nextAddr info)) \/
      (b = false /\ maxPlayers env < to_size_t (getPlayersOnline env + slot) /\
       info' = mkInfo (l1 ++ mkNode (addr n) (mkWait (deadline time slot) g) :: l2)
                 (priorityEnd info) (nextAddr info)))) \/
  (exempt player || unqueued env info = false /\
   b = false /\ ~ In g (guids l) /\
   exists l1 l2 slot it,
     l = l1 ++ l2 /\
     info' = mkInfo (l1 ++ new_entry info time slot g :: l2) it (S (nextAddr info)) /\
     ((isPremium player = false /\ l2 = [] /\ slot = Z.of_nat (length l) /\
       it = priorityEnd info) \/
      (isPremium player = true /\ distance l (priorityEnd info) = Some slot /\
       it = It (nextAddr info)))).
Proof.
  intros Hnd H time g l.
  destruct (exempt player) eqn:Hex.
  { rewrite clientLogin_exempt in H by assumption. injection H as <- <-.
    left. auto. }
  destruct (unqueued env info) eqn:Hun.
  { rewrite clientLogin_unqueued in H by assumption. injection H as <- <-.
    left. auto. }
  right. rewrite clientLogin_queued in H by assumption.
  pose proof (purge_NoDup addr (OTSYS_TIME env) _ Hnd) as Ha.
  fold time l g in H, Ha.
  destruct (findClient_loop g l 1) as [[a|] slot] eqn:Hfind.
  - left. split; [reflexivity|].
    destruct (findClient_loop_found _ _ _ _ _ Hfind) as (l1 & n & l2 & Hl & <- & Hn & Hl1).
    exists l1, n, l2, slot. rewrite Hl in Ha. rewrite <- Hl at 1.
    repeat split; try assumption.
    destruct (Z.leb_spec (to_size_t (getPlayersOnline env + slot)) (maxPlayers env));
      injection H as <- <-; [left|right]; repeat split; try assumption.
    + rewrite Hl. now rewrite erase_split.
    + rewrite Hl. rewrite set_timeout_split by assumption. now rewrite Hn.
  - right. apply findClient_loop_end in Hfind.
    destruct (isPremium player).
    + destruct (distance l (priorityEnd info)) as [slot'|] eqn:Hd; [|discriminate].
      destruct (emplace _ _ l) as [l'|] eqn:Hem; [|discriminate].
      destruct (emplace_split _ _ _ _ Hem) as (l1 & l2 & Hl & ->).
      injection H as <- <-. repeat split; try assumption.
      exists l1, l2, slot', (It (nextAddr info)). repeat split; try assumption.
      right. auto.
    + injection H as <- <-. repeat split; try assumption.
      exists l, [], (Z.of_nat (length l)), (priorityEnd info).
      rewrite app_nil_r. repeat split. left. auto.
Qed.

(** A call of [clientLogin] that gets past the early returns leaves the
    entries of the other players as the purge loop left them, in the same
    order; an early return leaves the whole state. *)
Theorem clientLogin_leaves_other_entries
  (env : Env) (player : Player) (info : WaitListInfo) (b : bool) (info' : WaitListInfo)
  (Haddr : NoDup (map addr (waitList info)))
  (Hcall : clientLogin env player info = Ret (b, info')) :
  (exempt player || unqueued env info = true -> info' = info) /\
  (exempt player || unqueued env info = false ->
   filter (fun n => negb (playerGUID (elt n) =? getGUID player)) (waitList info')
   = filter (fun n => negb (playerGUID (elt n) =? getGUID player))
       (purge (OTSYS_TIME env) (waitList info))).
Proof.
  destruct (clientLogin_cases _ _ _ _ _ Haddr Hcall)
    as [(He & _ & ->) | [(He & l1 & n & l2 & slot & Hl & Hn & _ & _ & Hr)
                        | (He & _ & _ & l1 & l2 & slot & it & Hl & -> & _)]];
    (split; [intros; congruence || reflexivity|]); try congruence; intros _.
  - rewrite Hl.
    destruct Hr as [(_ & _ & ->)|(_ & _ & ->)]; cbn [waitList];
      rewrite !filter_app; cbn [filter elt playerGUID];
      rewrite ?Hn, Z.eqb_refl; reflexivity.
  - rewrite Hl. cbn [waitList]. rewrite !filter_app. cbn [filter new_entry elt playerGUID].
    now rewrite Z.eqb_refl.
Qed.

(** [clientLogin] assigns [priorityEnd] only when it emplaces a premium
    player: whatever the purge loop and [erase] remove, [priorityEnd] stays
    the iterator it was. *)
Theorem priorityEnd_set_only_by_premium_insert
  (env : Env) (player : Player) (info : WaitListInfo) (b : bool) (info' : WaitListInfo)
  (Hcall : clientLogin env player info = Ret (b, info')) :
  priorityEnd info' = priorityEnd info \/
  (b = false /\ isPremium player = true /\
   ~ In (getGUID player) (guids (purge (OTSYS_TIME env) (waitList info))) /\
   priorityEnd info' = It (nextAddr info) /\
   In (nextAddr info) (map addr (waitList info'))).
Proof.
  destruct (exempt player) eqn:Hex.
  { rewrite clientLogin_exempt in Hcall by assumption. injection Hcall as <- <-. now left. }
  destruct (unqueued env info) eqn:Hun.
  { rewrite clientLogin_unqueued in Hcall by assumption. injection Hcall as <- <-. now left. }
  rewrite clientLogin_queued in Hcall by assumption.
  destruct (findClient_loop _ _ 1) as [[a|] slot] eqn:Hfind.
  - destruct (to_size_t (getPlayersOnline env + slot) <=? maxPlayers env);
      injection Hcall as <- <-; now left.
  - apply findClient_loop_end in Hfind.
    destruct (isPremium player).
    + destruct (distance _ (priorityEnd info)) as [slot'|]; [|discriminate].
      destruct (emplace _ _ _) as [l'|] eqn:Hem; [|discriminate].
      destruct (emplace_split _ _ _ _ Hem) as (l1 & l2 & Hl & ->).
      injection Hcall as <- <-. right. cbn [priorityEnd waitList].
      repeat split; try assumption.
      rewrite map_app, in_app_iff. right. now left.
    + injection Hcall as <- <-. now left.
Qed.

(** In every reachable state no two entries are of the same player, no two
    nodes have the same address, every address was handed out by the
    allocator, [priorityEnd] is [end()] or an address that was handed out,
    and every timeout is a [std::size_t] value. *)
Theorem reachable_state_invariant (info : WaitListInfo) (Hreach : reachable info) :
  NoDup (guids (waitList info)) /\
  NoDup (map addr (waitList info)) /\
  Forall (fun n => (addr n < nextAddr info)%nat) (waitList info) /\
  (forall a, priorityEnd info = It a -> (a < nextAddr info)%nat) /\
  Forall (fun n => 0 <= timeout (elt n) < 2 ^ 64) (waitList info).
Proof.
  pose proof (reachable_list_ok _ Hreach) as (Ha & Hg & Hf).
  repeat split; try assumption; clear Ha Hg Hf.
  - induction Hreach as [|env player info b info' Hr IH H]; [discriminate|].
    intros a Ha.
    destruct (clientLogin_cases _ _ _ _ _ (proj1 (reachable_list_ok _ Hr)) H)
      as [(_ & _ & ->) | [(_ & l1 & n & l2 & slot & _ & _ & _ & _ & Hc)
                         | (_ & _ & _ & l1 & l2 & slot & it & _ & -> & Hit)]].
    + now apply IH.
    + destruct Hc as [(_ & _ & ->)|(_ & _ & ->)];
        cbn [priorityEnd nextAddr] in *; now apply IH.
    + cbn [priorityEnd nextAddr] in *.
      destruct Hit as [(_ & _ & _ & ->)|(_ & _ & ->)].
      * specialize (IH a Ha). lia.
      * injection Ha as <-. lia.
  - induction Hreach as [|env player info b info' Hr IH H]; [constructor|].
    assert (Hpurged : Forall (fun n => 0 <= timeout (elt n) < 2 ^ 64)
                        (purge (OTSYS_TIME env) (waitList info))).
    { rewrite Forall_forall in *. intros n Hn. apply IH. now apply purge_In in Hn. }
    destruct (clientLogin_cases _ _ _ _ _ (proj1 (reachable_list_ok _ Hr)) H)
      as [(_ & _ & ->) | [(_ & l1 & n & l2 & slot & Hl & _ & _ & _ & Hc)
                         | (_ & _ & _ & l1 & l2 & slot & it & Hl & -> & _)]];
      [assumption| |]; rewrite Hl in Hpurged; rewrite Forall_app in Hpurged;
      destruct Hpurged as [H1 H2].
    + inversion H2; subst.
      destruct Hc as [(_ & _ & ->)|(_ & _ & ->)]; cbn [waitList];
        rewrite Forall_app; split; try assumption.
      constructor; [|assumption]. cbn. apply deadline_range.
    + cbn [waitList]. rewrite Forall_app. split; [assumption|].
      constructor; [|assumption]. cbn. apply deadline_range.
Qed.

(** A standard player who has no entry after the purge loop, in a call
    that gets past the early returns, is denied whether or not there is
    room: the new entry is the last of the list, its timeout is the time
    plus [getTimeout] of the new size times 1000, and [getClientSlot] then
    gives the new size. *)
Theorem standard_newcomer_queued_last
  (env : Env) (player : Player) (info : WaitListInfo)
  (Hexempt : exempt player = false)
  (Hqueue : unqueued env info = false)
  (Hstandard : isPremium player = false)
  (Hnew : ~ In (getGUID player) (guids (purge (OTSYS_TIME env) (waitList info))))
  (Hsize : Z.of_nat (length (purge (OTSYS_TIME env) (waitList info))) + 1 < 2 ^ 64)
  (Htime : 0 <= OTSYS_TIME env < 2 ^ 63) :
  let l := purge (OTSYS_TIME env) (waitList info) in
  let size := Z.of_nat (length l) + 1 in
  let info' :=
    mkInfo (l ++ [mkNode (nextAddr info)
                    (mkWait (OTSYS_TIME env + getTimeout size * 1000) (getGUID player))])
      (priorityEnd info) (S (nextAddr info)) in
  clientLogin env player info = Ret (false, info') /\
  getClientSlot player info' = Ret (size, info').
Proof.
  intros l size info'. split.
  - rewrite clientLogin_queued by assumption. fold l.
    pose proof (findClient_loop_absent _ _ 1 Hnew) as E. fold l in E.
    destruct (findClient_loop (getGUID player) l 1) as [it slot].
    cbn [fst] in E. subst it. rewrite Hstandard.
    unfold info', new_entry, size. rewrite to_size_t_small by (fold l in Hsize; lia).
    now rewrite deadline_eq.
  - unfold getClientSlot, findClient, bind, get, ret, info'. cbn [waitList].
    rewrite findClient_loop_first; try assumption; try reflexivity; try lia.
    + do 2 f_equal. unfold size. lia.
    + fold l in Hsize. lia.
Qed.

(** A premium player who has no entry after the purge loop, in a call that
    gets past the early returns, with [priorityEnd] at [end()] or at a node
    of the purged list, is denied: the new entry goes directly before the
    node [priorityEnd] points to (last when it is [end()]), [priorityEnd]
    becomes the new entry, and [getClientSlot] then gives its position. *)
Theorem premium_newcomer_queued_before_priorityEnd
  (env : Env) (player : Player) (info : WaitListInfo) (l1 l2 : WaitList)
  (Hexempt : exempt player = false)
  (Hqueue : unqueued env info = false)
  (Hpremium : isPremium player = true)
  (Hnew : ~ In (getGUID player) (guids (purge (OTSYS_TIME env) (waitList info))))
  (Haddr : NoDup (map addr (waitList info)))
  (Hpurged : purge (OTSYS_TIME env) (waitList info) = l1 ++ l2)
  (Hend : match l2 with
          | [] => priorityEnd info = ItEnd
          | n :: _ => priorityEnd info = It (addr n)
          end)
  (Hsize : Z.of_nat (length l1) + 1 < 2 ^ 64)
  (Htime : 0 <= OTSYS_TIME env < 2 ^ 63) :
  let slot := Z.of_nat (length l1) + 1 in
  let info' :=
    mkInfo (l1 ++ mkNode (nextAddr info)
                    (mkWait (OTSYS_TIME env + getTimeout slot * 1000) (getGUID player))
               :: l2)
      (It (nextAddr info)) (S (nextAddr info)) in
  clientLogin env player info = Ret (false, info') /\
  getClientSlot player info' = Ret (slot, info').
Proof.
  intros slot info'. split.
  - rewrite clientLogin_queued by assumption.
    pose proof (findClient_loop_absent _ _ 1 Hnew) as E.
    pose proof (purge_NoDup addr (OTSYS_TIME env) _ Haddr) as Hnd.
    rewrite Hpurged in *.
    destruct (findClient_loop (getGUID player) (l1 ++ l2) 1) as [it s].
    cbn [fst] in E. subst it. rewrite Hpremium.
    assert (Hd : distance (l1 ++ l2) (priorityEnd info) = Some (Z.of_nat (length l1))).
    { destruct l2 as [|n l2]; rewrite Hend; cbn [distance].
      - now rewrite app_nil_r.
      - now apply distance_to_split. }
    rewrite Hd.
    assert (Hem : forall new, emplace (priorityEnd info) new (l1 ++ l2)
                              = Some (l1 ++ new :: l2)).
    { intros new. destruct l2 as [|n l2]; rewrite Hend; cbn [emplace].
      - now rewrite app_nil_r.
      - now apply emplace_at_middle. }
    rewrite Hem. unfold info', new_entry, slot.
    rewrite to_size_t_small by lia. now rewrite deadline_eq.
  - unfold getClientSlot, findClient, bind, get, ret, info'. cbn [waitList].
    rewrite findClient_loop_first; try reflexivity; try lia.
    + do 2 f_equal. unfold slot. lia.
    + rewrite Hpurged in Hnew. unfold guids in *. rewrite map_app, in_app_iff in Hnew. tauto.
Qed.

(** [clientLogin] has undefined behaviour in one case only: a premium
    player with no entry after the purge loop, in a call that gets past
    the early returns, while [priorityEnd] points to a node that is no
    longer in the list. *)
Theorem clientLogin_undefined_iff (env : Env) (player : Player) (info : WaitListInfo) :
  clientLogin env player info = Undefined <->
  exempt player = false /\
  unqueued env info = false /\
  isPremium player = true /\
  ~ In (getGUID player) (guids (purge (OTSYS_TIME env) (waitList info))) /\
  exists a,
    priorityEnd info = It a /\
    ~ In a (map addr (purge (OTSYS_TIME env) (waitList info))).
Proof.
  destruct (exempt player) eqn:Hex.
  { rewrite clientLogin_exempt by assumption. split; [discriminate|]. intuition discriminate. }
  destruct (unqueued env info) eqn:Hun.
  { rewrite clientLogin_unqueued by assumption. split; [discriminate|]. intuition discriminate. }
  rewrite clientLogin_queued by assumption.
  set (l := purge (OTSYS_TIME env) (waitList info)).
  destruct (findClient_loop (getGUID player) l 1) as [[a|] slot] eqn:Hfind.
  - split.
    + destruct (to_size_t (getPlayersOnline env + slot) <=? maxPlayers env); discriminate.
    + intros (_ & _ & _ & Hout & _).
      pose proof (findClient_loop_absent _ _ 1 Hout) as E. rewrite Hfind in E. discriminate.
  - apply findClient_loop_end in Hfind.
    destruct (isPremium player); [|split; [discriminate|intuition discriminate]].
    destruct (priorityEnd info) as [a|] eqn:Hp; cbn [distance emplace].
    + destruct (distance_to a l) as [slot'|] eqn:Hd.
      * assert (Hin : In a (map addr l)).
        { destruct (in_dec Nat.eq_dec a (map addr l)) as [Hin|Hout]; [assumption|].
          apply distance_to_None in Hout. congruence. }
        destruct (emplace_at a _ l) as [l'|] eqn:Hem.
        -- split; [discriminate|]. intros (_ & _ & _ & _ & a' & Ha' & Hout).
           injection Ha' as <-. contradiction.
        -- apply emplace_at_None in Hem. contradiction.
      * split; [|reflexivity]. intros _. repeat split; try assumption.
        exists a. split; [reflexivity|]. now apply distance_to_None.
    + split; [discriminate|]. intros (_ & _ & _ & _ & a' & Ha' & _). discriminate.
Qed.

(** After a call that returns false at a time that is not negative, the
    caller has an entry whose timeout is between 20 and 135 seconds after
    the time of the call. *)
Theorem denied_caller_deadline_window
  (env : Env) (player : Player) (info info' : WaitListInfo)
  (Haddr : NoDup (map addr (waitList info)))
  (Htime : 0 <= OTSYS_TIME env < 2 ^ 63)
  (Hcall : clientLogin env player info = Ret (false, info')) :
  exists n,
    In n (waitList info') /\
    playerGUID (elt n) = getGUID player /\
    OTSYS_TIME env + 20000 <= timeout (elt n) <= OTSYS_TIME env + 135000.
Proof.
  assert (Hw : forall slot, OTSYS_TIME env + 20000 <= deadline (OTSYS_TIME env) slot
                            <= OTSYS_TIME env + 135000).
  { intros slot. rewrite deadline_eq, getTimeout_eq by assumption.
    pose proof (getTime_range slot). lia. }
  destruct (clientLogin_cases _ _ _ _ _ Haddr Hcall)
    as [(_ & F & _) | [(_ & l1 & n & l2 & slot & _ & _ & _ & _ & Hc)
                      | (_ & _ & _ & l1 & l2 & slot & it & _ & -> & _)]];
    [discriminate| |].
  - destruct Hc as [(F & _)|(_ & _ & ->)]; [discriminate|].
    eexists. cbn [waitList]. split; [apply in_elt|]. cbn. split; [reflexivity|apply Hw].
  - eexists. cbn [waitList]. split; [apply in_elt|]. cbn. split; [reflexivity|apply Hw].
Qed.

(** On a list of fewer than 2^64 nodes the slot [getClientSlot] gives is
    at most the size of the list, and two players of different GUIDs who
    are both given a slot other than 0 are given different slots. *)
Theorem getClientSlot_bounds_distinct
  (p q : Player) (info : WaitListInfo) (sp sq : Z)
  (Hsize : Z.of_nat (length (waitList info)) < 2 ^ 64)
  (Hp : getClientSlot p info = Ret (sp, info))
  (Hq : getClientSlot q info = Ret (sq, info)) :
  0 <= sp <= Z.of_nat (length (waitList info)) /\
  (getGUID p <> getGUID q -> sp <> 0 -> sp <> sq).
Proof.
  assert (Hspec : forall r s, getClientSlot r info = Ret (s, info) ->
            s = 0 \/
            exists l1 n l2, waitList info = l1 ++ n :: l2 /\
                            playerGUID (elt n) = getGUID r /\
                            s = Z.of_nat (length l1) + 1).
  { intros r s Hr.
    destruct (in_dec Z.eq_dec (getGUID r) (guids (waitList info))) as [Hin|Hout].
    - right. destruct (first_entry _ _ Hin) as (l1 & n & l2 & Hl & Hn & Hl1).
      exists l1, n, l2. repeat split; try assumption.
      unfold getClientSlot, findClient, bind, get, ret in Hr.
      rewrite Hl in Hr, Hsize. rewrite length_app in Hsize. cbn [length] in Hsize.
      rewrite findClient_loop_first in Hr; try assumption; try lia.
      assert (E : 1 + Z.of_nat (length l1) = s) by congruence. lia.
    - left. rewrite getClientSlot_absent in Hr by assumption. now injection Hr as <-. }
  split.
  - destruct (Hspec _ _ Hp) as [->|(l1 & n & l2 & Hl & _ & ->)]; [lia|].
    rewrite Hl, length_app. cbn [length]. lia.
  - intros Hne Hsp E. subst sq.
    destruct (Hspec _ _ Hp) as [?|(l1 & n & l2 & Hl & Hn & Es)]; [contradiction|].
    destruct (Hspec _ _ Hq) as [?|(l1' & m & l2' & Hl' & Hm & Es')]; [contradiction|].
    assert (Hlen : length l1 = length l1') by lia.
    pose proof (nth_middle l1 l2 n n) as N1.
    pose proof (nth_middle l1' l2' m n) as N2.
    rewrite <- Hl in N1. rewrite <- Hl', <- Hlen in N2.
    apply Hne. rewrite <- Hn, <- Hm. congruence.
Qed.

(** Queueing and admission undo each other: when a standard player with
    no entry is queued by one call and asks again while the players online
    plus the slot do not exceed [maxPlayers], at a time that is the timeout
    of no entry, the second call returns true and the list is the one the
    purge loop of the first call left. *)
Theorem queued_then_admitted_round_trip
  (env env' : Env) (player : Player) (info : WaitListInfo)
  (Hexempt : exempt player = false)
  (Hqueue : unqueued env info = false)
  (Hstandard : isPremium player = false)
  (Hnew : ~ In (getGUID player) (guids (purge (OTSYS_TIME env) (waitList info))))
  (Haddr : NoDup (map addr (waitList info)))
  (Hfresh : Forall (fun n => (addr n < nextAddr info)%nat) (waitList info))
  (Hmax : maxPlayers env' <> 0)
  (Hroom : 0 <= getPlayersOnline env' /\
           getPlayersOnline env'
           + (Z.of_nat (length (purge (OTSYS_TIME env) (waitList info))) + 1)
           <= maxPlayers env')
  (Hkept : forall n, In n (purge (OTSYS_TIME env) (waitList info)) ->
                     expired (OTSYS_TIME env') (elt n) = false)
  (Hlater : expired (OTSYS_TIME env')
              (mkWait (deadline (OTSYS_TIME env)
                         (to_size_t (Z.of_nat (length (purge (OTSYS_TIME env)
                                                         (waitList info))) + 1)))
                 (getGUID player)) = false) :
  (clientLogin env player ;;; clientLogin env' player)%wl info
  = Ret (true, mkInfo (purge (OTSYS_TIME env) (waitList info))
                 (priorityEnd info) (S (nextAddr info))).
Proof.
  set (l := purge (OTSYS_TIME env) (waitList info)) in *.
  assert (Hm32 : maxPlayers env' < 2 ^ 32).
  { unfold maxPlayers, to_uint32. apply Z.mod_pos_bound. lia. }
  unfold bind at 1. rewrite clientLogin_queued by assumption. fold l.
  pose proof (findClient_loop_absent _ _ 1 Hnew) as E.
  destruct (findClient_loop (getGUID player) l 1) as [it slot].
  cbn [fst] in E. subst it. rewrite Hstandard.
  set (new := new_entry info (OTSYS_TIME env) (Z.of_nat (length l)) (getGUID player)).
  assert (Hun' : unqueued env'
                   (mkInfo (l ++ [new]) (priorityEnd info) (S (nextAddr info))) = false).
  { unfold unqueued. rewrite (proj2 (Z.eqb_neq _ _) Hmax). cbn [waitList].
    destruct l; reflexivity. }
  rewrite clientLogin_queued by assumption. cbn [waitList priorityEnd nextAddr].
  assert (Hp : purge (OTSYS_TIME env') (l ++ [new]) = l ++ [new]).
  { assert (G : forall k, (forall n, In n k -> expired (OTSYS_TIME env') (elt n) = false) ->
                          purge (OTSYS_TIME env') k = k).
    { induction k as [|m k IH]; intros Hk; cbn [purge]; [reflexivity|].
      rewrite (Hk m (or_introl eq_refl)). f_equal. apply IH.
      intros n Hn. apply Hk. now right. }
    apply G. intros n Hn. apply in_app_or in Hn. destruct Hn as [Hn|[<-|[]]].
    - now apply Hkept.
    - exact Hlater. }
  rewrite Hp.
  rewrite findClient_loop_first; try assumption; try reflexivity; try lia.
  rewrite (to_size_t_small (getPlayersOnline env' + _)) by lia.
  rewrite (proj2 (Z.leb_le _ _)) by lia.
  do 3 f_equal.
  assert (Hnd : NoDup (map addr (l ++ new :: []))).
  { apply NoDup_insert.
    - rewrite app_nil_r. now apply purge_NoDup.
    - rewrite app_nil_r. cbn [new new_entry addr]. intros F.
      apply in_map_iff in F. destruct F as (x & Hx & Hin).
      apply purge_In in Hin. destruct Hin as [Hin _].
      rewrite Forall_forall in Hfresh. apply Hfresh in Hin. lia. }
  change (addr new) with (nextAddr info) in *.
  replace (nextAddr info) with (addr new) by reflexivity.
  rewrite erase_split by assumption. now rewrite app_nil_r.
Qed.

(** With an empty list, [clientLogin] returns true, leaving the list
    empty, exactly when the player is exempt, [maxPlayers] is 0 or fewer
    than [maxPlayers] players are online. *)
Theorem empty_list_admits_iff (env : Env) (player : Player) (info : WaitListInfo)
  (Hempty : waitList info = []) :
  (exists info', clientLogin env player info = Ret (true, info')) <->
  exempt player = true \/ maxPlayers env = 0 \/ getPlayersOnline env < maxPlayers env.
Proof.
  split.
  - intros (info' & H).
    destruct (exempt player) eqn:Hex; [now left|right].
    destruct (unqueued env info) eqn:Hun.
    + unfold unqueued in Hun. rewrite Hempty in Hun.
      apply orb_true_iff in Hun. destruct Hun as [Hun|Hun].
      * left. now apply Z.eqb_eq.
      * right. now apply Z.ltb_lt.
    + rewrite clientLogin_queued in H by assumption.
      rewrite Hempty in H. cbn [purge findClient_loop] in H.
      destruct (isPremium player); [|discriminate].
      destruct (distance _ _); [|discriminate].
      destruct (emplace _ _ _); discriminate.
  - intros H. exists info.
    destruct (exempt player) eqn:Hex; [now apply clientLogin_exempt|].
    apply clientLogin_unqueued. unfold unqueued. rewrite Hempty.
    destruct H as [H|[H|H]]; [discriminate| |].
    + now rewrite (proj2 (Z.eqb_eq _ _) H).
    + rewrite (proj2 (Z.ltb_lt _ _) H). apply orb_true_r.
Qed.

End WaitingList.

(** ** The scenarios *)

Lemma reachable_queueA : reachable gamemaster queueA.
Proof.
  apply (reach_login gamemaster (server 2 1000) playerA newWaitListInfo false).
  - apply reach_new.
  - vm_compute. reflexivity.
Defined.

Lemma reachable_queueAB : reachable gamemaster queueAB.
Proof.
  apply (reach_login gamemaster (server 2 2000) playerB queueA false).
  - apply reachable_queueA.
  - vm_compute. reflexivity.
Defined.

(** C1: the list holds A's entry, whose timeout is 21000; D asks at time
    50000 with the server full.  The purge loop erases nothing: A's entry
    is still the first of the list when the call returns, and a call at a
    time equal to the timeout is the one that erases it. *)
Theorem C1_purge_keeps_elapsed_entry :
  reachable gamemaster queueA /\
  clientLogin gamemaster (server 2 50000) playerD queueA = Ret (false, queueAD) /\
  getClientSlot playerA queueAD = Ret (1, queueAD) /\
  purge 50000 (waitList queueA) = waitList queueA /\
  purge 21000 (waitList queueA) = [].
Proof.
  split; [exact reachable_queueA|].
  repeat split; vm_compute; reflexivity.
Qed.

(** C2: with the server full, the standard player A and then the premium
    player B ask: B's entry is behind A's.  The premium players B and then
    C ask: C's entry is in front of B's. *)
Theorem C2_premium_entries_out_of_order :
  (clientLogin gamemaster (server 2 1000) playerA ;;;
   clientLogin gamemaster (server 2 2000) playerB)%wl newWaitListInfo
  = Ret (false, queueAB) /\
  getClientSlot playerA queueAB = Ret (1, queueAB) /\
  getClientSlot playerB queueAB = Ret (2, queueAB) /\
  (clientLogin gamemaster (server 2 1000) playerB ;;;
   clientLogin gamemaster (server 2 2000) playerC)%wl newWaitListInfo
  = Ret (false, queueCB) /\
  getClientSlot playerC queueCB = Ret (1, queueCB) /\
  getClientSlot playerB queueCB = Ret (2, queueCB).
Proof.
  repeat split; vm_compute; reflexivity.
Qed.

(** C3: [MAX_PLAYERS] is 2, two players are online and the list is new.
    A is denied and gets the entry of slot 1 with timeout 1000 + 20000;
    the premium player B is denied next and is emplaced at the end of the
    list: [getClientSlot] gives 1 for A and 2 for B. *)
Theorem C3_scenario_premium_behind_standard :
  clientLogin gamemaster (server 2 1000) playerA newWaitListInfo = Ret (false, queueA) /\
  getClientSlot playerA queueA = Ret (1, queueA) /\
  map (fun n => timeout (elt n)) (waitList queueA) = [1000 + 20000] /\
  clientLogin gamemaster (server 2 2000) playerB queueA = Ret (false, queueAB) /\
  guids (waitList queueAB) = [getGUID playerA; getGUID playerB] /\
  getClientSlot playerB queueAB = Ret (2, queueAB) /\
  getClientSlot playerA queueAB = Ret (1, queueAB).
Proof.
  repeat split; vm_compute; reflexivity.
Qed.

(** An exempt caller, and any caller while [MAX_PLAYERS] is 0, is
    admitted with the list as it is: the entry of GUID 1 stays. *)
Lemma admitted_past_the_queue :
  clientLogin gamemaster (server 2 2000) playerA_flagged queueA = Ret (true, queueA) /\
  getClientSlot playerA_flagged queueA = Ret (1, queueA) /\
  clientLogin gamemaster (unlimited 2 2000) playerA queueA = Ret (true, queueA) /\
  getClientSlot playerA queueA = Ret (1, queueA).
Proof.
  repeat split; vm_compute; reflexivity.
Qed.

(** C4 as stated fails: in the reachable state [queueA] the call of the
    flagged player of GUID 1 returns true, and so does the call of player
    A while [MAX_PLAYERS] is 0; the entry of GUID 1 stays, and
    [getClientSlot] gives 1 after either call. *)
Lemma C4_admitted_player_still_queued :
  (reachable gamemaster queueA /\
   clientLogin gamemaster (server 2 2000) playerA_flagged queueA = Ret (true, queueA) /\
   getClientSlot playerA_flagged queueA = Ret (1, queueA) /\
   clientLogin gamemaster (unlimited 2 2000) playerA queueA = Ret (true, queueA) /\
   getClientSlot playerA queueA = Ret (1, queueA)) /\
  ~ (forall env player info info',
        reachable gamemaster info ->
        clientLogin gamemaster env player info = Ret (true, info') ->
        getClientSlot player info' = Ret (0, info')).
Proof.
  split.
  - split; [exact reachable_queueA|exact admitted_past_the_queue].
  - intros H.
    specialize (H (server 2 2000) playerA_flagged queueA queueA reachable_queueA
                  (proj1 admitted_past_the_queue)).
    pose proof (proj1 (proj2 admitted_past_the_queue)) as E.
    rewrite E in H. discriminate.
Qed.

(** ** The theorems at the scenarios *)

Lemma C5_timeout_policy_witness :
  1 <= 7 /\
  ((7 <= 4 -> getTime 7 = 5) /\
   (5 <= 7 <= 9 -> getTime 7 = 10) /\
   (10 <= 7 <= 19 -> getTime 7 = 20) /\
   (20 <= 7 <= 49 -> getTime 7 = 60) /\
   (50 <= 7 -> getTime 7 = 120) /\
   (forall slot', 7 <= slot' -> getTime 7 <= getTime slot') /\
   getTimeout 7 = getTime 7 + 15).
Proof.
  split; [lia|]. apply (C5_timeout_policy 7). lia.
Defined.

Lemma C7_unlimited_admits_witness :
  MAX_PLAYERS (unlimited 2 2000) = 0 /\
  clientLogin gamemaster (unlimited 2 2000) playerA queueA = Ret (true, queueA).
Proof.
  split; [reflexivity|].
  apply (C7_unlimited_admits gamemaster (unlimited 2 2000) playerA queueA).
  reflexivity.
Defined.

Lemma C8_getClientSlot_position_witness :
  Z.of_nat (length (waitList queueAB)) < 2 ^ 64 /\
  exists slot,
    getClientSlot playerB queueAB = Ret (slot, queueAB) /\
    (slot = 0 <-> ~ In (getGUID playerB) (guids (waitList queueAB))) /\
    (In (getGUID playerB) (guids (waitList queueAB)) ->
     exists l1 n l2,
       waitList queueAB = l1 ++ n :: l2 /\
       playerGUID (elt n) = getGUID playerB /\
       ~ In (getGUID playerB) (guids l1) /\
       slot = Z.of_nat (length l1) + 1 /\
       findClient playerB queueAB = Ret ((It (addr n), slot), queueAB)).
Proof.
  assert (H : Z.of_nat (length (waitList queueAB)) < 2 ^ 64) by (vm_compute; reflexivity).
  split; [exact H|].
  exact (C8_getClientSlot_position playerB queueAB H).
Defined.

Lemma C6_queued_player_asks_again_witness :
  (exempt gamemaster playerB = false /\
   maxPlayers (server 1 3000) <> 0 /\
   NoDup (map addr (waitList queueAB)) /\
   purge (OTSYS_TIME (server 1 3000)) (waitList queueAB)
   = [mkNode 0 (mkWait 21000 1)] ++ mkNode 1 (mkWait 22000 2) :: [] /\
   ~ In (getGUID playerB) (guids [mkNode 0 (mkWait 21000 1)]) /\
   maxPlayers (server 1 3000) < getPlayersOnline (server 1 3000) + 2) /\
  clientLogin gamemaster (server 1 3000) playerB queueAB
  = Ret (false,
         mkInfo [mkNode 0 (mkWait 21000 1); mkNode 1 (mkWait 23000 2)] (It 1) 2) /\
  getClientSlot playerB
    (mkInfo [mkNode 0 (mkWait 21000 1); mkNode 1 (mkWait 23000 2)] (It 1) 2)
  = Ret (2, mkInfo [mkNode 0 (mkWait 21000 1); mkNode 1 (mkWait 23000 2)] (It 1) 2).
Proof.
  assert (Hex : exempt gamemaster playerB = false) by reflexivity.
  assert (Hmax : maxPlayers (server 1 3000) <> 0) by (vm_compute; discriminate).
  assert (Hnd : NoDup (map addr (waitList queueAB))).
  { simpl. repeat constructor; simpl; intuition discriminate. }
  assert (Hp : purge (OTSYS_TIME (server 1 3000)) (waitList queueAB)
               = [mkNode 0 (mkWait 21000 1)] ++ mkNode 1 (mkWait 22000 2) :: [])
    by (vm_compute; reflexivity).
  assert (Hfirst : ~ In (getGUID playerB) (guids [mkNode 0 (mkWait 21000 1)])).
  { simpl. intuition discriminate. }
  assert (Hgt : maxPlayers (server 1 3000) < getPlayersOnline (server 1 3000) + 2)
    by (vm_compute; reflexivity).
  split; [repeat split; assumption|].
  refine (proj2 (C6_queued_player_asks_again gamemaster (server 1 3000) playerB queueAB
                   [mkNode 0 (mkWait 21000 1)] (mkNode 1 (mkWait 22000 2)) [] 2
                   Hex Hmax Hnd Hp eq_refl Hfirst eq_refl _ _) Hgt).
  - simpl. lia.
  - simpl. lia.
Defined.

Lemma C4_admitted_through_queue_holds_no_entry_witness :
  (reachable gamemaster queueA /\
   exempt gamemaster playerA = false /\
   maxPlayers (server 1 3000) <> 0 /\
   clientLogin gamemaster (server 1 3000) playerA queueA
   = Ret (true, mkInfo [] ItEnd 1)) /\
  ~ In (getGUID playerA) (guids (waitList (mkInfo [] ItEnd 1))) /\
  getClientSlot playerA (mkInfo [] ItEnd 1) = Ret (0, mkInfo [] ItEnd 1).
Proof.
  assert (Hex : exempt gamemaster playerA = false) by reflexivity.
  assert (Hmax : maxPlayers (server 1 3000) <> 0) by (vm_compute; discriminate).
  assert (Hcall : clientLogin gamemaster (server 1 3000) playerA queueA
                  = Ret (true, mkInfo [] ItEnd 1)) by (vm_compute; reflexivity).
  split; [repeat split; try assumption; exact reachable_queueA|].
  exact (C4_admitted_through_queue_holds_no_entry gamemaster (server 1 3000) playerA
           queueA (mkInfo [] ItEnd 1) reachable_queueA Hex Hmax Hcall).
Defined.

Lemma C10_denied_player_holds_one_entry_witness :
  (reachable gamemaster queueA /\
   clientLogin gamemaster (server 2 2000) playerB queueA = Ret (false, queueAB)) /\
  (length (waitList queueAB) <= S (length (waitList queueA)))%nat /\
  (false = false ->
   holds_one_entry playerB queueAB /\
   (refreshed (server 2 2000) playerB queueA queueAB \/
    created (server 2 2000) playerB queueA queueAB)).
Proof.
  assert (Hcall : clientLogin gamemaster (server 2 2000) playerB queueA
                  = Ret (false, queueAB)) by (vm_compute; reflexivity).
  split; [split; [exact reachable_queueA|exact Hcall]|].
  exact (C10_denied_player_holds_one_entry gamemaster (server 2 2000) playerB queueA
           false queueAB reachable_queueA Hcall).
Defined.

(** ** More scenarios *)

Lemma reachable_queueB : reachable gamemaster queueB.
Proof.
  apply (reach_login gamemaster (server 2 1000) playerB newWaitListInfo false).
  - apply reach_new.
  - vm_compute. reflexivity.
Qed.

Lemma reachable_queueB_admitted : reachable gamemaster queueB_admitted.
Proof.
  apply (reach_login gamemaster (server 1 2000) playerB queueB true).
  - apply reachable_queueB.
  - vm_compute. reflexivity.
Qed.

Lemma reachable_state_invariant_witness :
  reachable gamemaster queueAB /\
  NoDup (guids (waitList queueAB)) /\
  NoDup (map addr (waitList queueAB)) /\
  Forall (fun n => (addr n < nextAddr queueAB)%nat) (waitList queueAB) /\
  (forall a, priorityEnd queueAB = It a -> (a < nextAddr queueAB)%nat) /\
  Forall (fun n => 0 <= timeout (elt n) < 2 ^ 64) (waitList queueAB).
Proof.
  split; [exact reachable_queueAB|].
  exact (reachable_state_invariant gamemaster queueAB reachable_queueAB).
Defined.

Lemma NoDup_addr_queueA : NoDup (map addr (waitList queueA)).
Proof. simpl. repeat constructor; simpl; tauto. Qed.

Lemma NoDup_addr_queueAB : NoDup (map addr (waitList queueAB)).
Proof. simpl. repeat constructor; simpl; intuition discriminate. Qed.

Lemma NoDup_addr_queueB : NoDup (map addr (waitList queueB)).
Proof. simpl. repeat constructor; simpl; tauto. Qed.

Lemma clientLogin_leaves_other_entries_witness :
  (NoDup (map addr (waitList queueAB)) /\
   clientLogin gamemaster (server 1 3000) playerB queueAB
   = Ret (false, mkInfo [mkNode 0 (mkWait 21000 1); mkNode 1 (mkWait 23000 2)] (It 1) 2)) /\
  filter (fun n => negb (playerGUID (elt n) =? getGUID playerB))
    [mkNode 0 (mkWait 21000 1); mkNode 1 (mkWait 23000 2)]
  = filter (fun n => negb (playerGUID (elt n) =? getGUID playerB))
      (purge 3000 (waitList queueAB)).
Proof.
  assert (Hcall : clientLogin gamemaster (server 1 3000) playerB queueAB
                  = Ret (false, mkInfo [mkNode 0 (mkWait 21000 1);
                                        mkNode 1 (mkWait 23000 2)] (It 1) 2))
    by (vm_compute; reflexivity).
  split; [split; [exact NoDup_addr_queueAB|exact Hcall]|].
  apply (proj2 (clientLogin_leaves_other_entries gamemaster (server 1 3000) playerB
                  queueAB false _ NoDup_addr_queueAB Hcall)).
  reflexivity.
Defined.

Lemma priorityEnd_set_only_by_premium_insert_witness :
  clientLogin gamemaster (server 2 2000) playerB queueA = Ret (false, queueAB) /\
  (priorityEnd queueAB = priorityEnd queueA \/
   (false = false /\ isPremium playerB = true /\
    ~ In (getGUID playerB) (guids (purge (OTSYS_TIME (server 2 2000)) (waitList queueA))) /\
    priorityEnd queueAB = It (nextAddr queueA) /\
    In (nextAddr queueA) (map addr (waitList queueAB)))).
Proof.
  assert (Hcall : clientLogin gamemaster (server 2 2000) playerB queueA
                  = Ret (false, queueAB)) by (vm_compute; reflexivity).
  split; [exact Hcall|].
  exact (priorityEnd_set_only_by_premium_insert gamemaster (server 2 2000) playerB
           queueA false queueAB Hcall).
Defined.

Lemma purge_erases_equal_timeouts_witness :
  (0 <= 21000 < 2 ^ 63 /\
   Forall (fun n => 0 <= timeout (elt n) < 2 ^ 64) (waitList queueAB)) /\
  purge 21000 (waitList queueAB)
  = filter (fun n => negb (timeout (elt n) =? 21000)) (waitList queueAB).
Proof.
  assert (Ht : 0 <= 21000 < 2 ^ 63) by lia.
  assert (Hr : Forall (fun n => 0 <= timeout (elt n) < 2 ^ 64) (waitList queueAB)).
  { repeat constructor; simpl; lia. }
  split; [split; assumption|].
  exact (purge_erases_equal_timeouts 21000 (waitList queueAB) Ht Hr).
Defined.

Lemma standard_newcomer_queued_last_witness :
  (exempt gamemaster playerD = false /\
   unqueued (server 2 50000) queueA = false /\
   isPremium playerD = false /\
   ~ In (getGUID playerD) (guids (purge (OTSYS_TIME (server 2 50000)) (waitList queueA)))) /\
  clientLogin gamemaster (server 2 50000) playerD queueA = Ret (false, queueAD) /\
  getClientSlot playerD queueAD = Ret (2, queueAD).
Proof.
  assert (Hnew : ~ In (getGUID playerD)
                   (guids (purge (OTSYS_TIME (server 2 50000)) (waitList queueA)))).
  { simpl. intuition discriminate. }
  split; [repeat split; try reflexivity; exact Hnew|].
  refine (standard_newcomer_queued_last gamemaster (server 2 50000) playerD queueA
            eq_refl eq_refl eq_refl Hnew _ _).
  - simpl. lia.
  - simpl. lia.
Defined.

Lemma premium_newcomer_queued_before_priorityEnd_witness :
  (exempt gamemaster playerC = false /\
   unqueued (server 2 2000) queueB = false /\
   isPremium playerC = true /\
   ~ In (getGUID playerC) (guids (purge (OTSYS_TIME (server 2 2000)) (waitList queueB))) /\
   NoDup (map addr (waitList queueB)) /\
   purge (OTSYS_TIME (server 2 2000)) (waitList queueB) = [] ++ waitList queueB /\
   priorityEnd queueB = It 0) /\
  clientLogin gamemaster (server 2 2000) playerC queueB = Ret (false, queueCB) /\
  getClientSlot playerC queueCB = Ret (1, queueCB).
Proof.
  assert (Hnew : ~ In (getGUID playerC)
                   (guids (purge (OTSYS_TIME (server 2 2000)) (waitList queueB)))).
  { simpl. intuition discriminate. }
  split; [repeat split; try reflexivity; try exact Hnew; exact NoDup_addr_queueB|].
  refine (premium_newcomer_queued_before_priorityEnd gamemaster (server 2 2000) playerC
            queueB [] (waitList queueB)
            eq_refl eq_refl eq_refl Hnew NoDup_addr_queueB eq_refl eq_refl _ _).
  - simpl. lia.
  - simpl. lia.
Defined.

Lemma clientLogin_undefined_iff_witness :
  reachable gamemaster queueB_admitted /\
  clientLogin gamemaster (server 2 3000) playerC queueB_admitted = Undefined.
Proof.
  split; [exact reachable_queueB_admitted|].
  apply (proj2 (clientLogin_undefined_iff gamemaster (server 2 3000) playerC
                  queueB_admitted)).
  repeat split; try reflexivity.
  - simpl. tauto.
  - exists 0%nat. split; [reflexivity|]. simpl. tauto.
Defined.

Lemma denied_caller_deadline_window_witness :
  (NoDup (map addr (waitList queueA)) /\
   0 <= OTSYS_TIME (server 2 2000) < 2 ^ 63 /\
   clientLogin gamemaster (server 2 2000) playerB queueA = Ret (false, queueAB)) /\
  exists n,
    In n (waitList queueAB) /\
    playerGUID (elt n) = getGUID playerB /\
    OTSYS_TIME (server 2 2000) + 20000 <= timeout (elt n)
    <= OTSYS_TIME (server 2 2000) + 135000.
Proof.
  assert (Ht : 0 <= OTSYS_TIME (server 2 2000) < 2 ^ 63) by (simpl; lia).
  assert (Hcall : clientLogin gamemaster (server 2 2000) playerB queueA
                  = Ret (false, queueAB)) by (vm_compute; reflexivity).
  split; [repeat split; try exact Hcall; try exact NoDup_addr_queueA; apply Ht|].
  exact (denied_caller_deadline_window gamemaster (server 2 2000) playerB queueA queueAB
           NoDup_addr_queueA Ht Hcall).
Defined.

Lemma getClientSlot_bounds_distinct_witness :
  (Z.of_nat (length (waitList queueAB)) < 2 ^ 64 /\
   getClientSlot playerA queueAB = Ret (1, queueAB) /\
   getClientSlot playerB queueAB = Ret (2, queueAB)) /\
  0 <= 1 <= Z.of_nat (length (waitList queueAB)) /\
  (getGUID playerA <> getGUID playerB -> 1 <> 0 -> 1 <> 2).
Proof.
  assert (Hs : Z.of_nat (length (waitList queueAB)) < 2 ^ 64) by (simpl; lia).
  split; [repeat split; try reflexivity; exact Hs|].
  exact (getClientSlot_bounds_distinct playerA playerB queueAB 1 2 Hs eq_refl eq_refl).
Defined.

Lemma queued_then_admitted_round_trip_witness :
  (exempt gamemaster playerD = false /\
   unqueued (server 2 50000) queueA = false /\
   isPremium playerD = false /\
   maxPlayers (server 0 60000) <> 0 /\
   getPlayersOnline (server 0 60000)
   + (Z.of_nat (length (purge (OTSYS_TIME (server 2 50000)) (waitList queueA))) + 1)
   <= maxPlayers (server 0 60000)) /\
  (clientLogin gamemaster (server 2 50000) playerD ;;;
   clientLogin gamemaster (server 0 60000) playerD)%wl queueA
  = Ret (true, mkInfo (waitList queueA) ItEnd 2).
Proof.
  assert (Hmax : maxPlayers (server 0 60000) <> 0) by (vm_compute; discriminate).
  assert (Hroom : 0 <= getPlayersOnline (server 0 60000) /\
                  getPlayersOnline (server 0 60000)
                  + (Z.of_nat (length (purge (OTSYS_TIME (server 2 50000))
                                         (waitList queueA))) + 1)
                  <= maxPlayers (server 0 60000)).
  { split; vm_compute; discriminate. }
  split; [repeat split; try reflexivity; try exact Hmax; apply Hroom|].
  refine (queued_then_admitted_round_trip gamemaster (server 2 50000) (server 0 60000)
            playerD queueA eq_refl eq_refl eq_refl _ NoDup_addr_queueA _ Hmax Hroom _ _).
  - simpl. intuition discriminate.
  - repeat constructor.
  - intros n [<-|[]]. reflexivity.
  - reflexivity.
Defined.

Lemma empty_list_admits_iff_witness :
  waitList newWaitListInfo = [] /\
  ((exists info', clientLogin gamemaster (server 1 1000) playerA newWaitListInfo
                  = Ret (true, info')) <->
   exempt gamemaster playerA = true \/ maxPlayers (server 1 1000) = 0 \/
   getPlayersOnline (server 1 1000) < maxPlayers (server 1 1000)).
Proof.
  split; [reflexivity|].
  exact (empty_list_admits_iff gamemaster (server 1 1000) playerA newWaitListInfo eq_refl).
Defined.
